(** * Blueprint-to-resource-graph assembly: stacker_blueprints

    A shallow embedding of [stacker_blueprints/aws_lambda.py] (the
    [Function] and [FunctionScheduler] blueprints) and of
    [stacker_blueprints/postgres.py] (the [PostgresRDS] blueprint).

    The blueprints are written against two libraries that are imported, not
    defined, by these modules: the resource-description library (template
    object, resource classes, [Ref]/[GetAtt]/[Join], condition functions) and
    the blueprint base class (variable resolution, [cf_safe_name]).  Resource
    descriptions are plain data here; the template's registration operations
    and the variable resolver follow the specification; [cf_safe_name] and
    [get_lambda_assumerole_policy] are parameters of the development. *)

From Stdlib Require Import ZArith Ascii.
From stdpp Require Import base option strings list gmap.

#[local] Set Warnings "-register-all".

(** ** Values, resources, outputs, conditions *)

(** The classes of the objects the blueprints build. *)
Inductive pyclass :=
  | iam_Role | iam_PolicyType
  | awslambda_Function | awslambda_Version | awslambda_Alias
  | awslambda_Permission | awslambda_Code | awslambda_DeadLetterConfig
  | awslambda_Environment | awslambda_VPCConfig
  | events_Rule
  | rds_DBInstance | rds_DBSubnetGroup | ec2_SecurityGroup
  | route53_RecordSetType
  | awacs_Policy | awacs_Statement | awacs_Action.

#[global] Instance pyclass_eq_dec : EqDecision pyclass.
Proof. solve_decision. Defined.

(** Python values as the blueprints handle them: literals, the reference
    forms [Ref], [GetAtt] and [Join], property objects ([VObj]: a class and
    its keyword arguments), the [Targets] of an events rule, and whole
    resource objects (a resolved [TroposphereType] variable is one).

    A target carries its two string properties [Arn] and [Id] (the rule was
    built and type-checked by the resource library before the blueprint sees
    it) and its remaining properties.  A resource has a class, a title, its
    properties in keyword order and an optional [Condition] attribute. *)
Inductive value :=
  | VStr (s : string)
  | VInt (n : Z)
  | VBool (b : bool)
  | VList (l : list value)
  | VDict (d : list (string * value))
  | Ref (logical_name : string)
  | GetAtt (logical_name attr : string)
  | Join (sep : string) (parts : list value)
  | VObj (cls : pyclass) (kwargs : list (string * value))
  | VTargets (ts : list target)
  | VResource (r : resource)
with target :=
  | Target (arn id : string) (rest : list (string * value))
with resource :=
  | Resource (cls : pyclass) (t : string) (props : list (string * value))
             (cond : option string).

Definition Arn (t : target) : string := let 'Target a _ _ := t in a.
Definition Id (t : target) : string := let 'Target _ i _ := t in i.

Definition res_class (r : resource) : pyclass := let 'Resource c _ _ _ := r in c.
Definition title (r : resource) : string := let 'Resource _ t _ _ := r in t.
Definition properties (r : resource) : list (string * value) :=
  let 'Resource _ _ p _ := r in p.
Definition res_condition (r : resource) : option string :=
  let 'Resource _ _ _ c := r in c.

(** Pseudo parameters of the resource library. *)
Definition NoValue : value := Ref "AWS::NoValue".
Definition Region : value := Ref "AWS::Region".
Definition AccountId : value := Ref "AWS::AccountId".

Record output := Output {
  out_title : string;
  out_value : value;
  out_condition : option string
}.

(** Condition functions, as far as [postgres.py] uses them. *)
Inductive cexpr :=
  | Equals (a b : value)
  | Not (c : cexpr)
  | And (cs : list cexpr)
  | Condition (cname : string).

Record Template := mkTemplate {
  resources : list resource;
  outputs : list output;
  conditions : list (string * cexpr)
}.

Definition empty_template : Template := mkTemplate [] [] [].

(** Lookup in keyword arguments / an insertion-ordered dict. *)
Fixpoint assoc {A} (k : string) (d : list (string * A)) : option A :=
  match d with
  | [] => None
  | (k', v) :: d' => if String.eqb k k' then Some v else assoc k d'
  end.

(** [d[k] = v] on an insertion-ordered dict: an existing key keeps its
    position and takes the new value, a new key goes last. *)
Fixpoint dict_set {A} (k : string) (v : A) (d : list (string * A))
  : list (string * A) :=
  match d with
  | [] => [(k, v)]
  | (k', v') :: d' =>
      if String.eqb k k' then (k', v) :: d' else (k', v') :: dict_set k v d'
  end.

(** Python truthiness. *)
Definition truthy (v : value) : bool :=
  match v with
  | VStr s => negb (String.eqb s "")
  | VInt n => negb (n =? 0)%Z
  | VBool b => b
  | VList l => negb (Nat.eqb (length l) 0)
  | VDict d => negb (Nat.eqb (length d) 0)
  | _ => true
  end.

(** [a or b]. *)
Definition py_or (a b : value) : value := if truthy a then a else b.

(** ** Errors and the render monad *)

Inductive error :=
  | MissingRequiredVariable (var : string)
  | TypeMismatch (var : string)
  | UndefinedCondition (cname : string)
  | DuplicateResourceName (t : string)
  | KeyError (key : string)
  | AttributeError (attr : string)
  | TypeError.

Inductive result (A : Type) :=
  | OK (a : A)
  | Err (e : error).
Arguments OK {A} a.
Arguments Err {A} e.

(** What [self.context] offers to the blueprints. *)
Record Context := { get_fqn : string → string }.

(** A blueprint instance: the attributes of [self] that the three classes
    read or assign.  The attributes assigned during a render start unset. *)
Record Blueprint := mkBlueprint {
  name : string;
  context : Context;
  variables : gmap string value;
  role : option resource;
  role_arn : option value;
  policy : option resource;
  function : option resource;
  function_version : option resource;
  alias : option resource
}.

Definition new_blueprint (n : string) (c : Context) (vs : gmap string value)
  : Blueprint := mkBlueprint n c vs None None None None None None.

(** The state a render threads: [self] and [self.template]. *)
Record world := mkWorld { self : Blueprint; template : Template }.

Definition M (A : Type) : Type := world → result (A * world).

#[global] Instance M_ret : MRet M := λ A a w, OK (a, w).
#[global] Instance M_bind : MBind M := λ A B f m w,
  match m w with
  | OK (a, w') => f a w'
  | Err e => Err e
  end.

Definition raise {A} (e : error) : M A := λ _, Err e.

(** A computation that may fail but leaves the state alone. *)
Definition lift {A} (r : result A) : M A := λ w,
  match r with
  | OK a => OK (a, w)
  | Err e => Err e
  end.

Definition get_self : M Blueprint := λ w, OK (self w, w).
Definition set_self (f : Blueprint → Blueprint) : M unit :=
  λ w, OK (tt, mkWorld (f (self w)) (template w)).
Definition unwrap {A} (e : error) (o : option A) : M A :=
  match o with Some a => mret a | None => raise e end.

(** Reading an attribute that was never assigned raises. *)
Definition get_attr {A} (a : string) (f : Blueprint → option A) : M A :=
  s ← get_self; unwrap (AttributeError a) (f s).

Definition set_role (r : resource) : M unit :=
  set_self (λ s, mkBlueprint (name s) (context s) (variables s) (Some r)
     (role_arn s) (policy s) (function s) (function_version s) (alias s)).
Definition set_role_arn (v : value) : M unit :=
  set_self (λ s, mkBlueprint (name s) (context s) (variables s) (role s)
     (Some v) (policy s) (function s) (function_version s) (alias s)).
Definition set_policy (r : resource) : M unit :=
  set_self (λ s, mkBlueprint (name s) (context s) (variables s) (role s)
     (role_arn s) (Some r) (function s) (function_version s) (alias s)).
Definition set_function (r : resource) : M unit :=
  set_self (λ s, mkBlueprint (name s) (context s) (variables s) (role s)
     (role_arn s) (policy s) (Some r) (function_version s) (alias s)).
Definition set_function_version (r : resource) : M unit :=
  set_self (λ s, mkBlueprint (name s) (context s) (variables s) (role s)
     (role_arn s) (policy s) (function s) (Some r) (alias s)).
Definition set_alias (r : resource) : M unit :=
  set_self (λ s, mkBlueprint (name s) (context s) (variables s) (role s)
     (role_arn s) (policy s) (function s) (function_version s) (Some r)).

(** [self.get_variables()] and [variables[k]]. *)
Definition get_variables : M (gmap string value) :=
  s ← get_self; mret (variables s).
Definition getitem (d : gmap string value) (k : string) : M value :=
  unwrap (KeyError k) (d !! k).

(** ** The template's registration operations *)

(** Modelled from the spec: [Template.add_resource] belongs to the resource
    library, which is not part of the repository.  Resource names are unique
    within one render: assigning a name twice fails with
    [DuplicateResourceName]; otherwise the resource is appended to the graph
    and handed back.  References held in properties are not resolved here. *)
Definition add_resource (r : resource) : M resource := λ w,
  let t := template w in
  if existsb (String.eqb (title r)) (title <$> resources t)
  then Err (DuplicateResourceName (title r))
  else OK (r, mkWorld (self w)
                (mkTemplate (resources t ++ [r]) (outputs t) (conditions t))).

(** Modelled from the spec: [Template.add_output] belongs to the resource
    library.  Outputs are kept in declaration order, each with its owning
    condition unchanged. *)
Definition add_output (o : output) : M unit := λ w,
  let t := template w in
  OK (tt, mkWorld (self w)
            (mkTemplate (resources t) (outputs t ++ [o]) (conditions t))).

(** The condition names an expression depends on. *)
Fixpoint operands (e : cexpr) : list string :=
  match e with
  | Equals _ _ => []
  | Not c => operands c
  | And cs => concat (map operands cs)
  | Condition n => [n]
  end.

Definition registered (n : string) (cs : list (string * cexpr)) : bool :=
  existsb (String.eqb n) (fst <$> cs).

(** Modelled from the spec: [Template.add_condition] belongs to the resource
    library.  A condition may only depend on conditions registered before
    it; the first operand that is not registered yet makes the registration
    fail with [UndefinedCondition]. *)
Definition add_condition (n : string) (e : cexpr) : M string := λ w,
  let t := template w in
  match List.find (λ o, negb (registered o (conditions t))) (operands e) with
  | Some o => Err (UndefinedCondition o)
  | None =>
      OK (n, mkWorld (self w)
               (mkTemplate (resources t) (outputs t) (conditions t ++ [(n, e)])))
  end.

(** A [for] loop over a list, run for its effects. *)
Fixpoint for_each {A} (f : A → M unit) (l : list A) : M unit :=
  match l with
  | [] => mret tt
  | x :: l' => f x ;; for_each f l'
  end.

(** ** Variable schemas *)

(** The declared type of a variable: a Python type ([str], [int], [dict], a
    class), a [TroposphereType] wrapper, or one of the template-parameter
    types. *)
Inductive vtype :=
  | Tstr | Tint | Tdict
  | Tclass (c : pyclass)
  | TroposphereType (c : pyclass)
  | CFNString | CFNNumber | EC2SubnetIdList | EC2VPCId.

(** One entry of a [VARIABLES] table; a variable with no ["default"] key is
    required. *)
Record VariableSpec := mkVar {
  var_type : vtype;
  var_description : string;
  var_default : option value
}.

(** * aws_lambda.py *)

(** [awacs.aws.Allow] and the three [awacs.logs] actions. *)
Definition Allow : value := VStr "Allow".
Definition logs_action (a : string) : value :=
  VObj awacs_Action [("prefix", VStr "logs"); ("action", VStr a)].

Definition lambda_basic_execution_statements (log_group : value) : list value :=
  let log_group_parts :=
    [VStr "arn:aws:logs:"; Region; VStr ":"; AccountId;
     VStr ":log-group:"; log_group] in
  let log_group_arn := Join "" log_group_parts in
  let log_stream_wild := Join "" (log_group_parts ++ [VStr ":*"]) in
  [VObj awacs_Statement
     [("Effect", Allow);
      ("Resource", VList [log_group_arn; log_stream_wild]);
      ("Action", VList [logs_action "CreateLogGroup";
                        logs_action "CreateLogStream";
                        logs_action "PutLogEvents"])]].

(** [awslambda.VPCConfig] called on an unpacked mapping: the entries of the
    mapping become the keyword arguments; anything but a mapping cannot be
    unpacked. *)
Definition VPCConfig (vpc_config : value) : result value :=
  match vpc_config with
  | VDict d => OK (VObj awslambda_VPCConfig d)
  | _ => Err TypeError
  end.

Module Function.

Definition VARIABLES : list (string * VariableSpec) :=
  [("Code", mkVar (Tclass awslambda_Code)
      "The troposphere.awslambda.Code object returned by the aws lambda hook."
      None);
   ("DeadLetterArn", mkVar Tstr
      "Dead Letter Queue (DLQ) Arn (SQS, SNS, etc) that AWS Lambda (Lambda) sends events to when it can't process them."
      (Some (VStr "")));
   ("Description", mkVar Tstr "Description of the function." (Some (VStr "")));
   ("Environment", mkVar Tdict
      "Key-value pairs that Lambda caches and makes available for your Lambda functions."
      (Some (VDict [])));
   ("Handler", mkVar Tstr
      "The name of the function (within your source code) that Lambda calls to start running your code."
      (Some (VStr "handler")));
   ("KmsKeyArn", mkVar Tstr
      "The Amazon Resource Name (ARN) of an AWS Key Management Service (AWS KMS) key that Lambda uses to encrypt and decrypt environment variable values."
      (Some (VStr "")));
   ("MemorySize", mkVar Tint
      "The amount of memory, in MB, that is allocated to your Lambda function. Default: 128"
      (Some (VInt 128)));
   ("Runtime", mkVar Tstr
      "The runtime environment for the Lambda function that you are uploading."
      None);
   ("Timeout", mkVar Tint
      "The function execution time (in seconds) after which Lambda terminates the function. Default: 3"
      (Some (VInt 3)));
   ("VpcConfig", mkVar Tdict
      "If the Lambda function requires access to resources in a VPC, specify a VPC configuration that Lambda uses to set up an elastic network interface (ENI). Valid keys are: SecurityGroupIds (a list of Ids), and SubnetIds (a list of Ids)"
      (Some (VDict [])));
   ("Role", mkVar Tstr
      "Arn of the Role to create the function as - if not specified, a role will be created with the basic permissions necessary for Lambda to run."
      (Some (VStr "")));
   ("AliasName", mkVar Tstr "The name of an optional alias." (Some (VStr "")));
   ("AliasVersion", mkVar Tstr
      "The version string for the alias without the function Arn prepended."
      (Some (VStr "$LATEST")))].

Section Methods.
  (** [awacs.helpers.trust.get_lambda_assumerole_policy()]: the trust policy
      document the helper library returns. *)
Variable get_lambda_assumerole_policy : value.

Definition code : M value :=
    vars ← get_variables; getitem vars "Code".

Definition dead_letter_config : M value :=
    vars ← get_variables;
    arn ← getitem vars "DeadLetterArn";
    mret (if truthy arn
          then VObj awslambda_DeadLetterConfig [("TargetArn", arn)]
          else NoValue).

Definition environment : M value :=
    vars ← get_variables;
    environment ← getitem vars "Environment";
    mret (if truthy environment
          then VObj awslambda_Environment [("Variables", environment)]
          else NoValue).

Definition vpc_config : M value :=
    vars ← get_variables;
    vpc_config ← getitem vars "VpcConfig";
    if truthy vpc_config
    then lift (VPCConfig vpc_config)
    else mret NoValue.

Definition generate_policy_statements : list value :=
    let log_group := Join "/" [VStr "/aws/lambda"; Ref "Function"] in
    lambda_basic_execution_statements log_group.

Definition create_role : M unit :=
    r ← add_resource
          (Resource iam_Role "Role"
             [("AssumeRolePolicyDocument", get_lambda_assumerole_policy)] None);
    set_role r;;
    r ← get_attr "role" role;
    add_output (Output "RoleName" (Ref (title r)) None);;
    r ← get_attr "role" role;
    let role_arn := GetAtt (title r) "Arn" in
    set_role_arn role_arn;;
    add_output (Output "RoleArn" role_arn None).

Definition create_function : M unit :=
    variables ← get_variables;
    Code ← code;
    DeadLetterConfig ← dead_letter_config;
    Description ← getitem variables "Description";
    Environment ← environment;
    Handler ← getitem variables "Handler";
    KmsKeyArn ← getitem variables "KmsKeyArn";
    MemorySize ← getitem variables "MemorySize";
    Role ← get_attr "role_arn" role_arn;
    Runtime ← getitem variables "Runtime";
    Timeout ← getitem variables "Timeout";
    VpcConfig ← vpc_config;
    f ← add_resource
          (Resource awslambda_Function "Function"
             [("Code", Code);
              ("DeadLetterConfig", DeadLetterConfig);
              ("Description", py_or Description NoValue);
              ("Environment", Environment);
              ("Handler", Handler);
              ("KmsKeyArn", py_or KmsKeyArn NoValue);
              ("MemorySize", MemorySize);
              ("Role", Role);
              ("Runtime", Runtime);
              ("Timeout", Timeout);
              ("VpcConfig", VpcConfig)] None);
    set_function f;;
    f ← get_attr "function" function;
    add_output (Output "FunctionName" (Ref (title f)) None);;
    f ← get_attr "function" function;
    add_output (Output "FunctionArn" (GetAtt (title f) "Arn") None);;
    f ← get_attr "function" function;
    v ← add_resource
          (Resource awslambda_Version "LatestVersion"
             [("FunctionName", Ref (title f))] None);
    set_function_version v;;
    v ← get_attr "function_version" function_version;
    add_output (Output "LatestVersion" (Ref (title v)) None);;
    v ← get_attr "function_version" function_version;
    add_output (Output "LatestVersionArn" (GetAtt (title v) "Version") None);;
    alias_name ← getitem variables "AliasName";
    if truthy alias_name then
      f ← get_attr "function" function;
      AliasVersion ← getitem variables "AliasVersion";
      a ← add_resource
            (Resource awslambda_Alias "Alias"
               [("Name", alias_name);
                ("FunctionName", Ref (title f));
                ("FunctionVersion", py_or AliasVersion (VStr "$LATEST"))] None);
      set_alias a;;
      a ← get_attr "alias" alias;
      add_output (Output "AliasArn" (Ref (title a)) None)
    else mret tt.

Definition create_policy : M unit :=
    s ← get_self;
    let policy_prefix := get_fqn (context s) (name s) in
    r ← get_attr "role" role;
    p ← add_resource
          (Resource iam_PolicyType "Policy"
             [("PolicyName", VStr (policy_prefix +:+ "-policy"));
              ("PolicyDocument",
               VObj awacs_Policy [("Statement", VList generate_policy_statements)]);
              ("Roles", VList [Ref (title r)])] None);
    set_policy p;;
    p ← get_attr "policy" policy;
    add_output (Output "PolicyName" (Ref (title p)) None).

Definition create_template : M unit :=
    variables ← get_variables;
    Role ← getitem variables "Role";
    set_role_arn Role;;
    Role ← getitem variables "Role";
    (if negb (truthy Role) then create_role;; create_policy else mret tt);;
    create_function.
End Methods.

End Function.

Module FunctionScheduler.

Definition VARIABLES : list (string * VariableSpec) :=
  [("CloudwatchEventsRule", mkVar (TroposphereType events_Rule)
      "The troposphere.events.Rule object params." None)].

Section Methods.
  (** [stacker.util.cf_safe_name]: the sanitizer for resource names. *)
Variable cf_safe_name : string → string.

  (** [getattr(rule, "Targets", [])]. *)
Definition getattr_Targets (rule : resource) : M (list target) :=
    match assoc "Targets" (properties rule) with
    | None => mret []
    | Some (VTargets ts) => mret ts
    | Some _ => raise TypeError
    end.

  (** One turn of the first loop, on the dict [aws_lambda_arns]. *)
Definition gather (aws_lambda_arns : list (string * string)) (t : target)
    : list (string * string) :=
    if String.prefix "arn:aws:lambda:" (Arn t)
    then let safe_id := cf_safe_name (Id t) in
         dict_set safe_id (Arn t) aws_lambda_arns
    else aws_lambda_arns.

Definition Permission (rule : resource) (item : string * string) : resource :=
    let '(event_rule_target_id, aws_lambda_arn) := item in
    Resource awslambda_Permission
      ("PermToInvokeFunctionFor" +:+ event_rule_target_id)
      [("Principal", VStr "events.amazonaws.com");
       ("Action", VStr "lambda:InvokeFunction");
       ("FunctionName", VStr aws_lambda_arn);
       ("SourceArn", GetAtt (title rule) "Arn")] None.

Definition create_scheduler : M unit :=
    variables ← get_variables;
    v ← getitem variables "CloudwatchEventsRule";
    match v with
    | VResource troposphere_events_rule =>
        targets ← getattr_Targets troposphere_events_rule;
        let aws_lambda_arns := fold_left gather targets [] in
        rule ← add_resource troposphere_events_rule;
        for_each (λ item, add_resource (Permission rule item);; mret tt)
                 aws_lambda_arns
    | _ => raise (AttributeError "title")
    end.

Definition create_template : M unit := create_scheduler.
End Methods.

End FunctionScheduler.

(** * postgres.py *)

Module PostgresRDS.

Definition RDS_INSTANCE_NAME (n : string) : string := "PostgresRDS" +:+ n.
Definition RDS_SUBNET_GROUP (n : string) : string := n +:+ "SubnetGroup".
Definition RDS_SG_NAME (n : string) : string := "RdsSG" +:+ n.

Definition VARIABLES : list (string * VariableSpec) :=
  [("VpcId", mkVar EC2VPCId "Vpc Id" None);
   ("PrivateSubnets", mkVar EC2SubnetIdList
      "Subnets to deploy private instances in." None);
   ("InstanceType", mkVar CFNString "AWS RDS Instance Type"
      (Some (VStr "db.m3.large")));
   ("AllocatedStorage", mkVar CFNNumber
      "Space, in GB, to allocate to RDS instance." (Some (VStr "10")));
   ("MasterUser", mkVar CFNString "Name of the master user in the db."
      (Some (VStr "dbuser")));
   ("MasterUserPassword", mkVar CFNString "Master user password." None);
   ("PreferredBackupWindow", mkVar CFNString
      "A (minimum 30 minute) window in HH:MM-HH:MM format in UTC for backups. Default: 3am-4am"
      (Some (VStr "11:00-12:00")));
   ("DBName", mkVar CFNString "Initial db to create in database." None);
   ("InternalZoneId", mkVar CFNString "Internal zone Id, if you have one."
      (Some (VStr "")));
   ("InternalZoneName", mkVar CFNString "Internal zone name, if you have one."
      (Some (VStr "")));
   ("InternalHostname", mkVar CFNString
      "Internal domain name, if you have one." (Some (VStr "")))].

Definition create_conditions : M unit :=
  add_condition "HasInternalZone"
    (Not (Equals (Ref "InternalZoneId") (VStr "")));;
  add_condition "HasInternalZoneName"
    (Not (Equals (Ref "InternalZoneName") (VStr "")));;
  add_condition "HasInternalHostname"
    (Not (Equals (Ref "InternalHostname") (VStr "")));;
  add_condition "CreateInternalHostname"
    (And [Condition "HasInternalZone";
          Condition "HasInternalZoneName";
          Condition "HasInternalHostname"]);;
  mret tt.

Definition create_subnet_group : M unit :=
  s ← get_self;
  add_resource
    (Resource rds_DBSubnetGroup (RDS_SUBNET_GROUP (name s))
       [("DBSubnetGroupDescription", VStr (name s +:+ " VPC subnet group."));
        ("SubnetIds", Ref "PrivateSubnets")] None);;
  mret tt.

Definition create_security_group : M unit :=
  s ← get_self;
  let sg_name := RDS_SG_NAME (name s) in
  sg ← add_resource
         (Resource ec2_SecurityGroup sg_name
            [("GroupDescription", VStr (sg_name +:+ " RDS security group"));
             ("VpcId", Ref "VpcId")] None);
  add_output (Output "SecurityGroup" (Ref (title sg)) None).

Definition create_rds : M unit :=
  s ← get_self;
  let db_name := RDS_INSTANCE_NAME (name s) in
  add_resource
    (Resource rds_DBInstance db_name
       [("AllocatedStorage", Ref "AllocatedStorage");
        ("AllowMajorVersionUpgrade", VBool false);
        ("AutoMinorVersionUpgrade", VBool true);
        ("BackupRetentionPeriod", VInt 30);
        ("DBName", Ref "DBName");
        ("DBInstanceClass", Ref "InstanceType");
        ("DBSubnetGroupName", Ref (RDS_SUBNET_GROUP (name s)));
        ("Engine", VStr "postgres");
        ("EngineVersion", VStr "9.3.14");
        ("MasterUsername", Ref "MasterUser");
        ("MasterUserPassword", Ref "MasterUserPassword");
        ("MultiAZ", VBool true);
        ("PreferredBackupWindow", Ref "PreferredBackupWindow");
        ("VPCSecurityGroups", VList [Ref (RDS_SG_NAME (name s))])] None);;
  let endpoint := GetAtt db_name "Endpoint.Address" in
  add_resource
    (Resource route53_RecordSetType (db_name +:+ "DnsRecord")
       [("HostedZoneId", Ref "InternalZoneId");
        ("Comment", VStr "RDS DB CNAME Record");
        ("Name", Join "." [Ref "InternalHostname"; Ref "InternalZoneName"]);
        ("Type", VStr "CNAME");
        ("TTL", VStr "120");
        ("ResourceRecords", VList [endpoint])]
       (Some "CreateInternalHostname"));;
  add_output (Output "DBAddress" endpoint None);;
  add_output (Output "DBCname" (Ref (db_name +:+ "DnsRecord"))
                (Some "CreateInternalHostname")).

Definition create_template : M unit :=
  create_conditions;;
  create_subnet_group;;
  create_security_group;;
  create_rds.

End PostgresRDS.

(** ** Rendering *)

(** One render: a blueprint instance runs its [create_template] on a
    template of its own, and the finished template is the result. *)
Definition finished {A} (r : result (A * world)) : result Template :=
  match r with
  | OK (_, w) => OK (template w)
  | Err e => Err e
  end.

Definition render (create_template : M unit) (b : Blueprint) : result Template :=
  finished (create_template (mkWorld b empty_template)).

(** ** Resolved variables *)

(** A value is of a declared Python type when [isinstance] says so ([bool]
    is a subclass of [int]); the wrapper types validate their values
    themselves, which puts no constraint here. *)
Definition conforms (ty : vtype) (v : value) : bool :=
  match ty, v with
  | Tstr, VStr _ => true
  | Tint, (VInt _ | VBool _) => true
  | Tdict, VDict _ => true
  | Tclass c, VObj c' _ => bool_decide (c = c')
  | (Tstr | Tint | Tdict | Tclass _), _ => false
  | _, _ => true
  end.

(** A variable assignment for a schema: every declared variable is bound to
    a value of its declared type. *)
Definition well_resolved (schema : list (string * VariableSpec))
    (vars : gmap string value) : bool :=
  forallb (λ '(n, spec),
             match vars !! n with
             | Some v => conforms (var_type spec) v
             | None => false
             end) schema.

Module Resolver.
Section Resolve.
  (** The coercion of a supplied value to a declared type, [None] when the
      value cannot be coerced. *)
Variable coerce : vtype → value → option value.

  (** The value of one declared variable. *)
Definition resolve_variable (n : string) (spec : VariableSpec)
      (supplied : gmap string value) : result value :=
    match supplied !! n with
    | Some v =>
        match coerce (var_type spec) v with
        | Some v' => OK v'
        | None => Err (TypeMismatch n)
        end
    | None =>
        match var_default spec with
        | Some d => OK d
        | None => Err (MissingRequiredVariable n)
        end
    end.

  (** Modelled from the spec: [resolve(declaredSchema, suppliedValues)] is
      the blueprint base class's, which is not part of the repository.
      Every declared variable gets a value, the supplied one coerced to the
      declared type or else the default unchanged; a required variable that
      is absent fails with [MissingRequiredVariable], a value that cannot be
      coerced with [TypeMismatch], and the first violation met in
      declaration order is the one reported. *)
Fixpoint resolve (schema : list (string * VariableSpec))
      (supplied : gmap string value) : result (gmap string value) :=
    match schema with
    | [] => OK ∅
    | (n, spec) :: rest =>
        match resolve_variable n spec supplied with
        | Err e => Err e
        | OK v =>
            match resolve rest supplied with
            | Err e => Err e
            | OK vars => OK (<[n := v]> vars)
            end
        end
    end.
End Resolve.
End Resolver.

(** ** Evaluating conditions *)

(** Modelled from the spec: conditions are evaluated by the renderer, which
    is not part of the repository.  Given the values of the template
    parameters, each condition evaluates to a fixed boolean; a composite
    only looks at conditions registered before it, and a conjunction stops
    at its first false operand. *)
Definition eval_operand (params : gmap string string) (v : value)
  : option string :=
  match v with
  | VStr s => Some s
  | Ref p => params !! p
  | _ => None
  end.

Fixpoint eval_cexpr (params : gmap string string) (env : gmap string bool)
    (e : cexpr) : option bool :=
  match e with
  | Equals a b =>
      match eval_operand params a, eval_operand params b with
      | Some x, Some y => Some (String.eqb x y)
      | _, _ => None
      end
  | Not c => negb <$> eval_cexpr params env c
  | And cs =>
      (fix conj (cs : list cexpr) : option bool :=
         match cs with
         | [] => Some true
         | c :: cs' =>
             match eval_cexpr params env c with
             | Some true => conj cs'
             | other => other
             end
         end) cs
  | Condition n => env !! n
  end.

Definition eval_conditions (params : gmap string string)
    (registry : list (string * cexpr)) : gmap string bool :=
  fold_left (λ env '(n, e),
               match eval_cexpr params env e with
               | Some b => <[n := b]> env
               | None => env
               end) registry ∅.

(** The value of a named condition of a template. *)
Definition condition_value (params : gmap string string) (t : Template)
    (n : string) : option bool :=
  eval_conditions params (conditions t) !! n.

(** ** Reading a finished template *)

Definition of_class (c : pyclass) (t : Template) : list resource :=
  filter (λ r, res_class r = c) (resources t).

Definition find_resource (n : string) (t : Template) : option resource :=
  List.find (λ r, String.eqb (title r) n) (resources t).

Definition find_output (n : string) (t : Template) : list output :=
  filter (λ o, out_title o = n) (outputs t).

Definition property (k : string) (r : resource) : option value :=
  assoc k (properties r).

(** The targets [create_scheduler] takes for lambda functions, and the entry
    of [aws_lambda_arns] each of them writes. *)
Definition lambda_targets (ts : list target) : list target :=
  filter (λ t, String.prefix "arn:aws:lambda:" (Arn t)) ts.

Definition item_of (cf_safe_name : string → string) (t : target)
  : string * string :=
  (cf_safe_name (Id t), Arn t).

(** Every declared variable can be given a value: what is supplied can be
    coerced, what is not supplied has a default. *)
Definition resolvable (coerce : vtype → value → option value)
    (schema : list (string * VariableSpec)) (supplied : gmap string value)
  : Prop :=
  ∀ n spec, (n, spec) ∈ schema →
    match supplied !! n with
    | Some v => is_Some (coerce (var_type spec) v)
    | None => is_Some (var_default spec)
    end.

(** How often a character occurs in a string. *)
Fixpoint occurrences (c : ascii) (s : string) : nat :=
  match s with
  | EmptyString => 0
  | String c' s' => (if Ascii.eqb c c' then 1 else 0) + occurrences c s'
  end.

(** ** A sanitizer and sample inputs *)

Definition is_alnum (c : ascii) : bool :=
  let n := nat_of_ascii c in
  (48 <=? n) && (n <=? 57) || (65 <=? n) && (n <=? 90)
  || (97 <=? n) && (n <=? 122).

Definition upper (c : ascii) : ascii :=
  let n := nat_of_ascii c in
  if (97 <=? n) && (n <=? 122) then ascii_of_nat (n - 32) else c.

(** Modelled from the spec: [cf_safe_name] comes from the blueprint base
    library, which is not part of the repository.  The sanitized name keeps
    the alphanumeric characters only, and the first character of every
    alphanumeric run is put in upper case. *)
Fixpoint safe_name_from (run_start : bool) (s : string) : string :=
  match s with
  | EmptyString => EmptyString
  | String c s' =>
      if is_alnum c
      then String (if run_start then upper c else c) (safe_name_from false s')
      else safe_name_from true s'
  end.

Definition alnum_safe_name (s : string) : string := safe_name_from true s.

(** The coercion that accepts exactly the values of the declared type. *)
Definition strict_coerce (ty : vtype) (v : value) : option value :=
  if conforms ty v then Some v else None.

Definition sample_context : Context := {| get_fqn := λ n, "prod-" +:+ n |}.

Definition sample_code : value :=
  VObj awslambda_Code [("S3Bucket", VStr "artifacts"); ("S3Key", VStr "fn.zip")].

(** A [Function] assignment with a role of its own, an alias without a
    version, a dead letter queue and a VPC configuration. *)
Definition sample_function_variables : gmap string value :=
  list_to_map
    [("Code", sample_code);
     ("DeadLetterArn", VStr "arn:aws:sqs:us-east-1:123456789012:dlq");
     ("Description", VStr "");
     ("Environment", VDict []);
     ("Handler", VStr "handler");
     ("KmsKeyArn", VStr "");
     ("MemorySize", VInt 128);
     ("Runtime", VStr "python2.7");
     ("Timeout", VInt 3);
     ("VpcConfig", VDict [("SubnetIds", VList [VStr "subnet-1"])]);
     ("Role", VStr "arn:aws:iam::123456789012:role/existing");
     ("AliasName", VStr "live");
     ("AliasVersion", VStr "")].

Definition sample_function : Blueprint :=
  new_blueprint "resize" sample_context sample_function_variables.

(** The same instance with attributes left over from an earlier use. *)
Definition stale_function : Blueprint :=
  mkBlueprint "resize" sample_context sample_function_variables
    (Some (Resource iam_Role "Old" [] None)) (Some (VStr "arn:stale"))
    None None None None.

(** What a caller supplies when only the required variables are given. *)
Definition sample_supplied : gmap string value :=
  list_to_map [("Code", sample_code); ("Runtime", VStr "python2.7")].

Definition sample_rule (t : string) (ts : list target) : resource :=
  Resource events_Rule t
    [("ScheduleExpression", VStr "rate(5 minutes)"); ("Targets", VTargets ts)]
    None.

Definition scheduler_with (r : resource) : Blueprint :=
  new_blueprint "schedule" sample_context
    {[ "CloudwatchEventsRule" := VResource r ]}.

(** Two lambda targets with distinct sanitized ids and a queue. *)
Definition distinct_targets : list target :=
  [Target "arn:aws:lambda:us-east-1:123456789012:function:resize" "resize-image" [];
   Target "arn:aws:sqs:us-east-1:123456789012:audit" "audit-queue" [];
   Target "arn:aws:lambda:us-east-1:123456789012:function:purge" "purge" []].

Definition distinct_rule : resource := sample_rule "Nightly" distinct_targets.

(** Two lambda targets whose ids differ but sanitize to the same name. *)
Definition colliding_targets : list target :=
  [Target "arn:aws:lambda:us-east-1:123456789012:function:first" "my-fn" [];
   Target "arn:aws:lambda:us-east-1:123456789012:function:second" "my_fn" []].

(** A rule that carries the name of the permission of its own target. *)
Definition clashing_rule : resource :=
  sample_rule "PermToInvokeFunctionForNightly"
    [Target "arn:aws:lambda:us-east-1:123456789012:function:nightly" "nightly" []].

(** Parameter values with a zone id and a zone name but no hostname. *)
Definition two_of_three : gmap string string :=
  list_to_map
    [("InternalZoneId", "Z2FDTNDATAQYW2"); ("InternalZoneName", "internal.");
     ("InternalHostname", "")].

(** ** References inside a graph *)

(** The logical names a value refers to through [Ref] and [GetAtt]. *)
Fixpoint refs (v : value) : list string :=
  match v with
  | Ref n => [n]
  | GetAtt n _ => [n]
  | VList l | Join _ l => flat_map refs l
  | VDict d | VObj _ d => flat_map (λ kv, refs kv.2) d
  | VTargets ts => flat_map refs_target ts
  | VResource r => refs_resource r
  | VStr _ | VInt _ | VBool _ => []
  end
with refs_target (t : target) : list string :=
  match t with
  | Target _ _ rest => flat_map (λ kv, refs kv.2) rest
  end
with refs_resource (r : resource) : list string :=
  match r with
  | Resource _ _ props _ => flat_map (λ kv, refs kv.2) props
  end.

(** Every name the resources and outputs of a template refer to, and every
    condition they are owned by. *)
Definition template_refs (t : Template) : list string :=
  flat_map refs_resource (resources t)
  ++ flat_map (λ o, refs (out_value o)) (outputs t).

Definition template_guards (t : Template) : list string :=
  omap res_condition (resources t) ++ omap out_condition (outputs t).

Definition pseudo_parameters : list string :=
  ["AWS::NoValue"; "AWS::Region"; "AWS::AccountId"].

(** The assignment a schema's defaults give. *)
Definition defaults (schema : list (string * VariableSpec))
  : gmap string value :=
  list_to_map (omap (λ '(n, spec), (λ d, (n, d)) <$> var_default spec) schema).

(** Parameter values with all three internal zone parameters given. *)
Definition all_three : gmap string string :=
  list_to_map
    [("InternalZoneId", "Z2FDTNDATAQYW2"); ("InternalZoneName", "internal.");
     ("InternalHostname", "orders-db")].

(** The graph of a PostgresRDS blueprint called ["orders"]. *)
Definition orders_template : Template :=
  match render PostgresRDS.create_template
          (new_blueprint "orders" sample_context ∅) with
  | OK t => t
  | Err _ => empty_template
  end.

(** * Properties *)

(** ** Running a render symbolically *)

Lemma bind_run {A B} (m : M A) (f : A → M B) w a w' :
  m w = OK (a, w') → (m ≫= f) w = f a w'.
Proof. intros H. unfold mbind, M_bind. by rewrite H. Qed.

(** Unfolds the monad and the methods of [Function]; list and string
    functions stay folded. *)
Ltac exec :=
  cbv beta iota zeta delta
    [render finished Function.create_template Function.create_function
     Function.create_role Function.create_policy Function.code
     Function.dead_letter_config Function.environment Function.vpc_config
     get_variables getitem unwrap lift get_attr get_self set_role
     set_role_arn set_policy set_function set_function_version set_alias
     set_self add_resource add_output raise mbind M_bind mret M_ret
     self template variables name context role role_arn policy function
     function_version alias resources outputs conditions empty_template].

(** Uses what is known about the variables and about the tests on them. *)
Ltac use_known :=
  repeat match goal with
  | H : ?m !! ?k = _ |- context [?m !! ?k] => rewrite H
  | H : truthy ?v = _ |- context [truthy ?v] => rewrite H
  | H : VPCConfig ?v = _ |- context [VPCConfig ?v] => rewrite H
  end.

Ltac run := repeat (exec; cbn; progress use_known); exec; cbn.

(** Every variable of [Function.VARIABLES] is bound, the [str] ones to
    strings and the [dict] ones to mappings. *)
Ltac resolved_vars H :=
  unfold well_resolved, Function.VARIABLES in H; cbn [forallb var_type] in H;
  repeat (apply andb_prop in H as [? H]);
  repeat match goal with
  | H : match ?m !! ?k with _ => _ end = true |- _ =>
      destruct (m !! k) eqn:?; [|discriminate H]
  end;
  repeat match goal with
  | H : conforms Tstr ?v = true |- _ => destruct v; try discriminate H; clear H
  | H : conforms Tdict ?v = true |- _ => destruct v; try discriminate H; clear H
  | H : conforms _ _ = true |- _ => clear H
  end.

(** The three values the control flow of [Function.create_template] tests. *)
Ltac function_paths :=
  repeat match goal with
  | H : _ !! "Role" = Some (VStr ?s) |- _ => is_var s; destruct s
  | H : _ !! "AliasName" = Some (VStr ?s) |- _ => is_var s; destruct s
  | H : _ !! "VpcConfig" = Some (VDict ?d) |- _ => is_var d; destruct d
  end.

(** ** The Function blueprint *)







(** ** The FunctionScheduler blueprint *)

Lemma existsb_eqb_false (x : string) (l : list string) :
  x ∉ l → existsb (String.eqb x) l = false.
Proof.
  induction l as [|y l IH]; [done|]. intros [Hne Hl]%not_elem_of_cons. cbn.
  rewrite (proj2 (String.eqb_neq x y) Hne). by apply IH.
Qed.

Lemma dict_set_fresh {A} k (v : A) d :
  k ∉ d.*1 → dict_set k v d = d ++ [(k, v)].
Proof.
  induction d as [|[k' v'] d IH]; [done|].
  intros [Hne Hd]%not_elem_of_cons. cbn.
  rewrite (proj2 (String.eqb_neq k k') Hne). by rewrite IH.
Qed.

Section SchedulerLoops.
Variable cf_safe_name : string → string.

  (** The first loop, when no two lambda targets share a sanitized id: one
      entry per lambda target, in the order of the targets. *)
Lemma gather_distinct ts acc :
    NoDup (acc.*1 ++ (fst ∘ item_of cf_safe_name <$> lambda_targets ts)) →
    fold_left (FunctionScheduler.gather cf_safe_name) ts acc
    = acc ++ (item_of cf_safe_name <$> lambda_targets ts).
  Proof.
    revert acc. induction ts as [|t ts IH]; intros acc Hnd; cbn [fold_left].
    { cbn. by rewrite app_nil_r. }
    unfold lambda_targets in *.
    unfold FunctionScheduler.gather at 2.
    destruct (String.prefix "arn:aws:lambda:" (Arn t)) eqn:Hp.
    - rewrite filter_cons_True in Hnd |- * by (by rewrite Hp). cbn in Hnd.
      rewrite dict_set_fresh.
      + rewrite IH.
        * by rewrite <- (assoc_L (++)).
        * rewrite fmap_app. cbn. by rewrite <- (assoc_L (++)).
      + apply NoDup_app in Hnd as (_ & Hd & _). intros Hin.
        apply (Hd _ Hin). apply list_elem_of_here.
    - rewrite filter_cons_False in Hnd |- * by (rewrite Hp; intros []).
      by apply IH.
  Qed.

  (** The second loop, when the permission names are new to the graph and
      distinct: every permission is appended. *)
Lemma grant_all rule items s rs os cs :
    NoDup items.*1 →
    (∀ k, k ∈ items.*1 → "PermToInvokeFunctionFor" +:+ k ∉ title <$> rs) →
    for_each
      (λ item, add_resource (FunctionScheduler.Permission rule item);; mret tt)
      items (mkWorld s (mkTemplate rs os cs))
    = OK (tt, mkWorld s
                (mkTemplate (rs ++ (FunctionScheduler.Permission rule <$> items))
                   os cs)).
  Proof.
    revert rs. induction items as [|[k a] items IH]; intros rs Hnd Hfresh; cbn.
    { by rewrite app_nil_r. }
    apply NoDup_cons in Hnd as [Hk Hnd].
    unfold mbind, M_bind, add_resource at 1.
    cbn [template resources title FunctionScheduler.Permission self outputs
         conditions].
    rewrite existsb_eqb_false by (apply Hfresh; apply list_elem_of_here).
    unfold mret, M_ret. rewrite IH; [by rewrite <- (assoc_L (++))|done|].
    intros k' Hk'. rewrite fmap_app. cbn. intros [Hin|Hin]%elem_of_app.
    - revert Hin. apply Hfresh. by apply list_elem_of_further.
    - apply list_elem_of_singleton in Hin. apply (inj _) in Hin. by subst.
  Qed.

  (** The second loop never looks at the blueprint instance. *)
Lemma grant_self_independent rule items s1 s2 t :
    finished (for_each
      (λ item, add_resource (FunctionScheduler.Permission rule item);; mret tt)
      items (mkWorld s1 t))
    = finished (for_each
      (λ item, add_resource (FunctionScheduler.Permission rule item);; mret tt)
      items (mkWorld s2 t)).
  Proof.
    revert t. induction items as [|item items IH]; intros t; [done|].
    cbn [for_each]. unfold mbind, M_bind, add_resource at 1 3.
    cbn [template self].
    destruct (existsb _ _); [done|]. unfold mret, M_ret. apply IH.
  Qed.
End SchedulerLoops.

(** C2, as amended.  Fan-out permission wiring.  For every events rule whose
    [Targets] are given, whose lambda targets have pairwise distinct
    sanitized ids, and whose own title is none of the permission names, a
    render succeeds and the graph is the rule followed by one permission
    resource per target whose [Arn] starts with ["arn:aws:lambda:"], in the
    order of the targets and with nothing for the other targets.  Each
    permission is named ["PermToInvokeFunctionFor"] followed by the
    sanitized target id, its [FunctionName] is the target's [Arn] and its
    [SourceArn] is the [Arn] attribute of the rule. *)
Theorem FunctionScheduler_permission_per_lambda_target cf b rule ts :
  variables b !! "CloudwatchEventsRule" = Some (VResource rule) →
  assoc "Targets" (properties rule) = Some (VTargets ts) →
  NoDup (cf ∘ Id <$> lambda_targets ts) →
  title rule
    ∉ ((λ tg, "PermToInvokeFunctionFor" +:+ cf (Id tg)) <$> lambda_targets ts) →
  ∃ t, render (FunctionScheduler.create_template cf) b = OK t ∧
    resources t
    = rule ::
      ((λ tg, Resource awslambda_Permission
                ("PermToInvokeFunctionFor" +:+ cf (Id tg))
                [("Principal", VStr "events.amazonaws.com");
                 ("Action", VStr "lambda:InvokeFunction");
                 ("FunctionName", VStr (Arn tg));
                 ("SourceArn", GetAtt (title rule) "Arn")] None)
         <$> lambda_targets ts).
Proof.
  intros Hrule Hts Hnd Htitle.
  unfold render, FunctionScheduler.create_template,
    FunctionScheduler.create_scheduler.
  erewrite bind_run by reflexivity.
  erewrite bind_run by (unfold getitem; cbn [self variables]; by rewrite Hrule).
  cbv beta iota.
  erewrite bind_run
    by (unfold FunctionScheduler.getattr_Targets; by rewrite Hts).
  erewrite bind_run by reflexivity.
  rewrite (gather_distinct cf ts []) by done. cbn [app].
  rewrite grant_all.
  - eexists. split; [reflexivity|]. cbn. f_equal.
    by rewrite <- list_fmap_compose.
  - by rewrite <- list_fmap_compose.
  - intros k Hk. rewrite <- list_fmap_compose in Hk.
    apply list_elem_of_fmap in Hk as (tg & -> & Htg). cbn.
    intros Hin%list_elem_of_singleton. apply Htitle.
    apply list_elem_of_fmap. by exists tg.
Qed.

Lemma FunctionScheduler_permission_per_lambda_target_witness :
  variables (scheduler_with distinct_rule) !! "CloudwatchEventsRule"
    = Some (VResource distinct_rule) ∧
  assoc "Targets" (properties distinct_rule) = Some (VTargets distinct_targets) ∧
  NoDup (alnum_safe_name ∘ Id <$> lambda_targets distinct_targets) ∧
  (title distinct_rule
     ∉ ((λ tg, "PermToInvokeFunctionFor" +:+ alnum_safe_name (Id tg))
          <$> lambda_targets distinct_targets)) ∧
  ∃ t, render (FunctionScheduler.create_template alnum_safe_name)
         (scheduler_with distinct_rule) = OK t ∧
    resources t
    = distinct_rule ::
      ((λ tg, Resource awslambda_Permission
                ("PermToInvokeFunctionFor" +:+ alnum_safe_name (Id tg))
                [("Principal", VStr "events.amazonaws.com");
                 ("Action", VStr "lambda:InvokeFunction");
                 ("FunctionName", VStr (Arn tg));
                 ("SourceArn", GetAtt (title distinct_rule) "Arn")] None)
         <$> lambda_targets distinct_targets).
Proof.
  assert (H1 : variables (scheduler_with distinct_rule) !! "CloudwatchEventsRule"
               = Some (VResource distinct_rule)) by (vm_compute; reflexivity).
  assert (H2 : assoc "Targets" (properties distinct_rule)
               = Some (VTargets distinct_targets)) by reflexivity.
  assert (H3 : NoDup (alnum_safe_name ∘ Id <$> lambda_targets distinct_targets))
    by (apply (bool_decide_unpack (NoDup _)); vm_compute; exact I).
  assert (H4 : title distinct_rule
    ∉ ((λ tg, "PermToInvokeFunctionFor" +:+ alnum_safe_name (Id tg))
         <$> lambda_targets distinct_targets))
    by (apply (bool_decide_unpack (_ ∉ _)); vm_compute; exact I).
  repeat (split; [assumption|]).
  exact (FunctionScheduler_permission_per_lambda_target alnum_safe_name
           (scheduler_with distinct_rule) distinct_rule distinct_targets
           H1 H2 H3 H4).
Defined.

(** C2, as stated, fails.  A rule that is titled like the permission of its
    own lambda target makes the render fail with [DuplicateResourceName], so
    that target gets no permission resource; and of two lambda targets
    whose ids sanitize to the same name only the second one is named by a
    permission resource. *)
Lemma FunctionScheduler_permission_wiring_counterexample :
  lambda_targets [Target "arn:aws:lambda:us-east-1:123456789012:function:nightly"
                    "nightly" []]
    = [Target "arn:aws:lambda:us-east-1:123456789012:function:nightly"
         "nightly" []] ∧
  render (FunctionScheduler.create_template alnum_safe_name)
    (scheduler_with clashing_rule)
    = Err (DuplicateResourceName "PermToInvokeFunctionForNightly") ∧
  length (lambda_targets colliding_targets) = 2 ∧
  ∃ t, render (FunctionScheduler.create_template alnum_safe_name)
         (scheduler_with (sample_rule "Nightly" colliding_targets)) = OK t ∧
    length (of_class awslambda_Permission t) = 1.
Proof.
  split; [reflexivity|]. split; [vm_compute; reflexivity|].
  split; [reflexivity|]. eexists. split; vm_compute; reflexivity.
Qed.

(** C3.  What the code does with colliding ids.  The two targets of
    [colliding_targets] are lambda targets with different ids and different
    [Arn]s, and both ids sanitize to ["MyFn"].  The render succeeds with a
    single permission resource, which names the second target's function:
    the first target's entry was overwritten, nothing was disambiguated and
    no [DuplicateResourceName] was raised. *)
Theorem FunctionScheduler_colliding_ids_overwrite :
  Id <$> colliding_targets = ["my-fn"; "my_fn"] ∧
  alnum_safe_name <$> (Id <$> colliding_targets) = ["MyFn"; "MyFn"] ∧
  lambda_targets colliding_targets = colliding_targets ∧
  ∃ t p, render (FunctionScheduler.create_template alnum_safe_name)
           (scheduler_with (sample_rule "Nightly" colliding_targets)) = OK t ∧
    of_class awslambda_Permission t = [p] ∧
    title p = "PermToInvokeFunctionForMyFn" ∧
    property "FunctionName" p
      = Some (VStr "arn:aws:lambda:us-east-1:123456789012:function:second").
Proof.
  split; [reflexivity|]. split; [reflexivity|]. split; [reflexivity|].
  do 2 eexists. repeat split; vm_compute; reflexivity.
Qed.

(** ** The PostgresRDS blueprint *)

(** The four resource names of one render are pairwise different, whatever
    the blueprint is called. *)
Lemma append_length (s1 s2 : string) :
  String.length (s1 +:+ s2) = String.length s1 + String.length s2.
Proof.
  induction s1 as [|c s1 IH]; [done|].
  change (String c s1 +:+ s2) with (String c (s1 +:+ s2)).
  cbn [String.length]. by rewrite IH.
Qed.

Lemma occurrences_append c (s1 s2 : string) :
  occurrences c (s1 +:+ s2) = occurrences c s1 + occurrences c s2.
Proof.
  induction s1 as [|c' s1 IH]; [done|].
  change (String c' s1 +:+ s2) with (String c' (s1 +:+ s2)).
  cbn [occurrences]. rewrite IH. lia.
Qed.

Lemma sg_not_subnet_group n :
  String.eqb (PostgresRDS.RDS_SG_NAME n) (PostgresRDS.RDS_SUBNET_GROUP n) = false.
Proof.
  apply String.eqb_neq. intros E. apply (f_equal String.length) in E.
  unfold PostgresRDS.RDS_SG_NAME, PostgresRDS.RDS_SUBNET_GROUP in E.
  rewrite !append_length in E. cbn in E. lia.
Qed.

(** Same length on both sides: the letter [b] tells them apart. *)
Lemma instance_not_subnet_group n :
  String.eqb (PostgresRDS.RDS_INSTANCE_NAME n) (PostgresRDS.RDS_SUBNET_GROUP n)
  = false.
Proof.
  apply String.eqb_neq. intros E. apply (f_equal (occurrences "b"%char)) in E.
  unfold PostgresRDS.RDS_INSTANCE_NAME, PostgresRDS.RDS_SUBNET_GROUP in E.
  rewrite !occurrences_append in E. cbn in E. lia.
Qed.

Lemma instance_not_sg n :
  String.eqb (PostgresRDS.RDS_INSTANCE_NAME n) (PostgresRDS.RDS_SG_NAME n)
  = false.
Proof. apply String.eqb_neq. intros E. vm_compute in E. discriminate E. Qed.

Lemma record_not_subnet_group n :
  String.eqb (PostgresRDS.RDS_INSTANCE_NAME n +:+ "DnsRecord")
             (PostgresRDS.RDS_SUBNET_GROUP n) = false.
Proof.
  apply String.eqb_neq. intros E. apply (f_equal String.length) in E.
  unfold PostgresRDS.RDS_INSTANCE_NAME, PostgresRDS.RDS_SUBNET_GROUP in E.
  rewrite !append_length in E. cbn in E. lia.
Qed.

Lemma record_not_sg n :
  String.eqb (PostgresRDS.RDS_INSTANCE_NAME n +:+ "DnsRecord")
             (PostgresRDS.RDS_SG_NAME n) = false.
Proof. apply String.eqb_neq. intros E. vm_compute in E. discriminate E. Qed.

Lemma record_not_instance n :
  String.eqb (PostgresRDS.RDS_INSTANCE_NAME n +:+ "DnsRecord")
             (PostgresRDS.RDS_INSTANCE_NAME n) = false.
Proof.
  apply String.eqb_neq. intros E. apply (f_equal String.length) in E.
  rewrite !append_length in E. cbn in E. lia.
Qed.

Ltac exec_pg :=
  cbv beta iota zeta delta
    [render finished PostgresRDS.create_template PostgresRDS.create_conditions
     PostgresRDS.create_subnet_group PostgresRDS.create_security_group
     PostgresRDS.create_rds get_self add_condition add_resource add_output
     mbind M_bind mret M_ret self template variables name context resources
     outputs conditions empty_template].

Ltac run_pg :=
  exec_pg; cbn;
  repeat (progress rewrite ?sg_not_subnet_group, ?instance_not_subnet_group,
            ?record_not_subnet_group, ?record_not_instance, ?instance_not_sg,
            ?record_not_sg; exec_pg; cbn).




Lemma registered_app n (cs1 cs2 : list (string * cexpr)) :
  registered n (cs1 ++ cs2) = registered n cs1 || registered n cs2.
Proof. unfold registered. by rewrite fmap_app, existsb_app. Qed.

Lemma find_unregistered_none (cs : list (string * cexpr)) ops :
  Forall (λ o, registered o cs = true) ops →
  List.find (λ o, negb (registered o cs)) ops = None.
Proof.
  induction 1 as [|o ops Ho _ IH]; [done|]. cbn. by rewrite Ho.
Qed.

Lemma add_condition_run n e w :
  Forall (λ o, registered o (conditions (template w)) = true) (operands e) →
  add_condition n e w
  = OK (n, mkWorld (self w)
             (mkTemplate (resources (template w)) (outputs (template w))
                (conditions (template w) ++ [(n, e)]))).
Proof.
  intros H. unfold add_condition. by rewrite (find_unregistered_none _ _ H).
Qed.

(** C6.  Conditions are registered in dependency order.  From any state,
    [create_conditions] succeeds, so no [UndefinedCondition] is raised; the
    registry ends with the composite ["CreateInternalHostname"], whose
    operands are ["HasInternalZone"], ["HasInternalZoneName"] and
    ["HasInternalHostname"], and each of them is registered in the part of
    the registry that precedes the composite. *)
Theorem PostgresRDS_conditions_registered_in_order w :
  ∃ w' pre e, PostgresRDS.create_conditions w = OK (tt, w') ∧
    conditions (template w') = pre ++ [("CreateInternalHostname", e)] ∧
    operands e
      = ["HasInternalZone"; "HasInternalZoneName"; "HasInternalHostname"] ∧
    Forall (λ o, registered o pre = true) (operands e).
Proof.
  set (has := λ p, Not (Equals (Ref p) (VStr ""))).
  assert (Hops : Forall (λ o, registered o
            (conditions (template w) ++
               [("HasInternalZone", has "InternalZoneId");
                ("HasInternalZoneName", has "InternalZoneName");
                ("HasInternalHostname", has "InternalHostname")]) = true)
          ["HasInternalZone"; "HasInternalZoneName"; "HasInternalHostname"]).
  { repeat constructor; rewrite registered_app; apply orb_true_intro; by right. }
  unfold PostgresRDS.create_conditions, mbind, M_bind, mret, M_ret.
  do 3 (rewrite add_condition_run by constructor;
        cbn [self template resources outputs conditions]).
  rewrite add_condition_run.
  - cbn [self template resources outputs conditions].
    eexists _, _, _. do 3 (split; [reflexivity|]).
    rewrite <- !(assoc_L (++)). exact Hops.
  - cbn [operands map concat app]. rewrite <- !(assoc_L (++)). exact Hops.
Qed.
(** ** The resolver *)

Section ResolverProperties.
Variable coerce : vtype → value → option value.

Lemma resolve_total schema supplied :
    resolvable coerce schema supplied → ∃ vars, Resolver.resolve coerce schema supplied = OK vars.
  Proof.
    induction schema as [|[n spec] schema IH]; intros Hr; cbn; [by eexists|].
    destruct IH as [vars ->].
    { intros n' spec' Hin. apply Hr. by right. }
    specialize (Hr n spec (list_elem_of_here _ _)).
    unfold Resolver.resolve_variable.
    destruct (supplied !! n) as [v|]; destruct Hr as [x ->]; by eexists.
  Qed.

Lemma resolve_declared schema supplied vars n spec :
    Resolver.resolve coerce schema supplied = OK vars → (n, spec) ∈ schema →
    is_Some (vars !! n).
  Proof.
    revert vars. induction schema as [|[n' spec'] schema IH]; intros vars;
      cbn; [by intros _ ?%elem_of_nil|].
    destruct (Resolver.resolve_variable coerce n' spec' supplied) as [v|]; [|done].
    destruct (Resolver.resolve coerce schema supplied) as [vars'|]; [|done].
    intros [= <-] [[= -> ->]|Hin]%elem_of_cons.
    - rewrite lookup_insert_eq. by eexists.
    - destruct (decide (n' = n)) as [->|Hne].
      + rewrite lookup_insert_eq. by eexists.
      + rewrite lookup_insert_ne by done. by apply IH.
  Qed.

Lemma resolve_default schema supplied vars n spec d :
    NoDup (fst <$> schema) →
    Resolver.resolve coerce schema supplied = OK vars → (n, spec) ∈ schema →
    supplied !! n = None → var_default spec = Some d → vars !! n = Some d.
  Proof.
    revert vars. induction schema as [|[n' spec'] schema IH]; intros vars;
      cbn; [by intros _ _ ?%elem_of_nil|].
    intros [Hfresh Hnd]%NoDup_cons.
    destruct (Resolver.resolve_variable coerce n' spec' supplied) as [v|] eqn:Hv; [|done].
    destruct (Resolver.resolve coerce schema supplied) as [vars'|]; [|done].
    intros [= <-] [[= -> ->]|Hin]%elem_of_cons Hs Hd.
    - rewrite lookup_insert_eq. unfold Resolver.resolve_variable in Hv.
      rewrite Hs, Hd in Hv. congruence.
    - rewrite lookup_insert_ne; [by apply IH|].
      intros ->. apply Hfresh. apply list_elem_of_fmap. by exists (n, spec).
  Qed.

Lemma resolve_first_violation pre n spec post supplied r :
    var_default spec = None → supplied !! n = None →
    Resolver.resolve coerce pre supplied = OK r →
    Resolver.resolve coerce (pre ++ (n, spec) :: post) supplied
    = Err (MissingRequiredVariable n).
  Proof.
    intros Hd Hs. revert r.
    induction pre as [|[n' spec'] pre IH]; intros r; cbn.
    - intros _. unfold Resolver.resolve_variable. by rewrite Hs, Hd.
    - destruct (Resolver.resolve_variable coerce n' spec' supplied) as [v|]; [|done].
      destruct (Resolver.resolve coerce pre supplied) as [r'|]; [|done].
      intros _. by rewrite (IH r').
  Qed.

Lemma resolve_required_absent schema n spec supplied :
    (n, spec) ∈ schema → var_default spec = None → supplied !! n = None →
    ∃ e, Resolver.resolve coerce schema supplied = Err e.
  Proof.
    intros Hin Hd Hs.
    induction schema as [|[n' spec'] schema IH]; [by apply elem_of_nil in Hin|].
    cbn. destruct (Resolver.resolve_variable coerce n' spec' supplied) as [v|] eqn:Hv;
      [|by eexists].
    apply elem_of_cons in Hin as [[= -> ->]|Hin].
    - unfold Resolver.resolve_variable in Hv. by rewrite Hs, Hd in Hv.
    - destruct (IH Hin) as [e ->]. by eexists.
  Qed.
End ResolverProperties.

Lemma VARIABLES_NoDup schema :
  schema ∈ [Function.VARIABLES; PostgresRDS.VARIABLES] →
  NoDup (fst <$> schema).
Proof.
  intros Hin. repeat (apply elem_of_cons in Hin as [->|Hin]);
    [| |by apply elem_of_nil in Hin];
    apply (bool_decide_unpack (NoDup _)); by vm_compute.
Qed.



(** ** Determinism of a render *)

Ltac need vars k :=
  destruct (vars !! k) eqn:?; [|solve [run; reflexivity]].

(** A render of [Function] reads the attributes [role], [role_arn],
    [policy], [function], [function_version] and [alias] only after it has
    assigned them, so whatever they held before has no effect. *)
Lemma Function_render_self_independent arp b1 b2 :
  name b1 = name b2 → context b1 = context b2 → variables b1 = variables b2 →
  render (Function.create_template arp) b1
  = render (Function.create_template arp) b2.
Proof.
  destruct b1 as [n1 c1 vars r1 ra1 p1 f1 fv1 a1],
           b2 as [n2 c2 vars2 r2 ra2 p2 f2 fv2 a2]; cbn.
  intros <- <- <-.
  destruct (vars !! "Role") as [vr|] eqn:?; [|solve [run; reflexivity]].
  destruct (truthy vr) eqn:?.
  all: need vars "Code"; need vars "DeadLetterArn"; need vars "Description";
    need vars "Environment"; need vars "Handler"; need vars "KmsKeyArn";
    need vars "MemorySize"; need vars "Runtime"; need vars "Timeout".
  all: destruct (vars !! "VpcConfig") as [vv|] eqn:?;
    [|solve [run; reflexivity]].
  all: destruct (truthy vv) eqn:?; [destruct (VPCConfig vv) eqn:?|].
  all: destruct (vars !! "AliasName") as [va|] eqn:?;
    [|solve [run; reflexivity]].
  all: destruct (truthy va) eqn:?.
  all: need vars "AliasVersion".
  all: run; reflexivity.
Qed.

Lemma FunctionScheduler_render_self_independent cf b1 b2 :
  variables b1 = variables b2 →
  render (FunctionScheduler.create_template cf) b1
  = render (FunctionScheduler.create_template cf) b2.
Proof.
  destruct b1 as [n1 c1 vars r1 ra1 p1 f1 fv1 a1],
           b2 as [n2 c2 vars2 r2 ra2 p2 f2 fv2 a2]; cbn.
  intros <-.
  unfold render, FunctionScheduler.create_template,
    FunctionScheduler.create_scheduler.
  do 2 erewrite (bind_run get_variables) by reflexivity.
  cbn [self variables]. unfold getitem.
  destruct (vars !! "CloudwatchEventsRule") as [v|]; [|reflexivity].
  do 2 erewrite bind_run by reflexivity. cbv beta iota.
  destruct v as [| | | | | | | | | |rule]; try reflexivity.
  unfold FunctionScheduler.getattr_Targets.
  destruct (assoc "Targets" (properties rule)) as [[]|]; try reflexivity.
  all: do 2 erewrite bind_run by reflexivity.
  all: unfold mbind at 1 3; unfold M_bind at 1 3; unfold add_resource at 1 3.
  all: cbn [template self resources empty_template fmap list_fmap existsb].
  all: apply grant_self_independent.
Qed.

Lemma PostgresRDS_render_self_independent b1 b2 :
  name b1 = name b2 →
  render PostgresRDS.create_template b1 = render PostgresRDS.create_template b2.
Proof.
  destruct b1 as [n1 c1 vars r1 ra1 p1 f1 fv1 a1],
           b2 as [n2 c2 vars2 r2 ra2 p2 f2 fv2 a2]; cbn.
  intros <-. by run_pg.
Qed.

(** C7.  Render determinism.  Two renders on fresh templates by instances
    with the same name, context and resolved variables give the same result
    (the same resources, conditions and outputs in the same order, or the
    same error), for each of the three blueprints and whatever else the two
    instances hold. *)
Theorem render_deterministic arp cf b1 b2 :
  name b1 = name b2 → context b1 = context b2 → variables b1 = variables b2 →
  render (Function.create_template arp) b1
  = render (Function.create_template arp) b2 ∧
  render (FunctionScheduler.create_template cf) b1
  = render (FunctionScheduler.create_template cf) b2 ∧
  render PostgresRDS.create_template b1
  = render PostgresRDS.create_template b2.
Proof.
  intros Hn Hc Hv. split; [|split].
  - by apply Function_render_self_independent.
  - by apply FunctionScheduler_render_self_independent.
  - by apply PostgresRDS_render_self_independent.
Qed.

Lemma render_deterministic_witness :
  name sample_function = name stale_function ∧
  context sample_function = context stale_function ∧
  variables sample_function = variables stale_function ∧
  render (Function.create_template (VStr "trust")) sample_function
  = render (Function.create_template (VStr "trust")) stale_function ∧
  render (FunctionScheduler.create_template alnum_safe_name) sample_function
  = render (FunctionScheduler.create_template alnum_safe_name) stale_function ∧
  render PostgresRDS.create_template sample_function
  = render PostgresRDS.create_template stale_function.
Proof.
  do 3 (split; [reflexivity|]).
  apply (render_deterministic (VStr "trust") alnum_safe_name sample_function
           stale_function); reflexivity.
Defined.

(** * Further properties *)

(** ** More on the Function blueprint *)



Lemma all_among (allowed l : list string) :
  forallb (λ n, existsb (String.eqb n) allowed) l = true →
  Forall (λ n, n ∈ allowed) l.
Proof.
  intros H. apply Forall_forall. intros n Hn.
  apply list_elem_of_In in Hn.
  apply (proj1 (forallb_forall _ _) H) in Hn.
  apply existsb_exists in Hn as (m & Hm & ->%String.eqb_eq).
  by apply list_elem_of_In.
Qed.



Ltac missing :=
  solve [run; intros [= <-]; left; eexists; (split; [reflexivity|eassumption])].





(** X5.  A Function with nothing but the required variables.  When only
    ["Code"] and ["Runtime"] are given and every other variable has the
    default of [Function.VARIABLES], the graph is a role, a policy, the
    function and its latest version, without an alias; the function uses
    the created role, the handler ["handler"], 128 MB and 3 seconds, and
    its five optional properties are [NoValue]. *)
Theorem Function_defaults_render arp code runtime b :
  variables b
  = <["Code" := code]> (<["Runtime" := VStr runtime]>
      (defaults Function.VARIABLES)) →
  ∃ t f, render (Function.create_template arp) b = OK t ∧
    title <$> resources t = ["Role"; "Policy"; "Function"; "LatestVersion"] ∧
    of_class awslambda_Function t = [f] ∧
    properties f
    = [("Code", code); ("DeadLetterConfig", NoValue);
       ("Description", NoValue); ("Environment", NoValue);
       ("Handler", VStr "handler"); ("KmsKeyArn", NoValue);
       ("MemorySize", VInt 128); ("Role", GetAtt "Role" "Arn");
       ("Runtime", VStr runtime); ("Timeout", VInt 3);
       ("VpcConfig", NoValue)].
Proof.
  destruct b as [bn bc vars br bra bp bf bfv bal]; cbn [variables].
  intros ->. do 2 eexists. split; [vm_compute; reflexivity|].
  repeat split.
Qed.

Lemma Function_defaults_render_witness :
  variables (new_blueprint "resize" sample_context
               (<["Code" := sample_code]> (<["Runtime" := VStr "python2.7"]>
                  (defaults Function.VARIABLES))))
  = <["Code" := sample_code]> (<["Runtime" := VStr "python2.7"]>
      (defaults Function.VARIABLES)) ∧
  ∃ t f, render (Function.create_template (VStr "trust"))
           (new_blueprint "resize" sample_context
              (<["Code" := sample_code]> (<["Runtime" := VStr "python2.7"]>
                 (defaults Function.VARIABLES)))) = OK t ∧
    title <$> resources t = ["Role"; "Policy"; "Function"; "LatestVersion"] ∧
    of_class awslambda_Function t = [f] ∧
    properties f
    = [("Code", sample_code); ("DeadLetterConfig", NoValue);
       ("Description", NoValue); ("Environment", NoValue);
       ("Handler", VStr "handler"); ("KmsKeyArn", NoValue);
       ("MemorySize", VInt 128); ("Role", GetAtt "Role" "Arn");
       ("Runtime", VStr "python2.7"); ("Timeout", VInt 3);
       ("VpcConfig", NoValue)].
Proof.
  split; [reflexivity|].
  apply (Function_defaults_render (VStr "trust") sample_code "python2.7"
           (new_blueprint "resize" sample_context
              (<["Code" := sample_code]> (<["Runtime" := VStr "python2.7"]>
                 (defaults Function.VARIABLES))))).
  reflexivity.
Defined.

(** ** More on the FunctionScheduler blueprint *)

Lemma existsb_eqb_true (x : string) (l : list string) :
  x ∈ l → existsb (String.eqb x) l = true.
Proof.
  intros Hin. apply existsb_exists. exists x. split.
  - by apply list_elem_of_In.
  - apply String.eqb_refl.
Qed.

Lemma dict_set_keys {A} k (v : A) d k' :
  k' ∈ (dict_set k v d).*1 ↔ k' = k ∨ k' ∈ d.*1.
Proof.
  induction d as [|[k0 v0] d IH]; cbn.
  - rewrite list_elem_of_singleton. split; [by left|].
    by intros [?|?%elem_of_nil].
  - destruct (String.eqb k k0) eqn:E; cbn.
    + apply String.eqb_eq in E as ->. rewrite !elem_of_cons. tauto.
    + rewrite !elem_of_cons, IH. tauto.
Qed.

Lemma dict_set_NoDup {A} k (v : A) d :
  NoDup d.*1 → NoDup (dict_set k v d).*1.
Proof.
  induction d as [|[k0 v0] d IH]; cbn.
  - intros _. apply NoDup_singleton.
  - intros [Hk0 Hd]%NoDup_cons. destruct (String.eqb k k0) eqn:E; cbn.
    + by apply NoDup_cons.
    + apply NoDup_cons. split; [|by apply IH].
      rewrite dict_set_keys. intros [->|?]; [|done].
      by rewrite String.eqb_refl in E.
Qed.

Lemma dict_set_entries {A} k (v : A) d k' v' :
  (k', v') ∈ dict_set k v d → (k' = k ∧ v' = v) ∨ (k', v') ∈ d.
Proof.
  induction d as [|[k0 v0] d IH]; cbn.
  - intros [= -> ->]%list_elem_of_singleton. by left.
  - destruct (String.eqb k k0) eqn:E.
    + apply String.eqb_eq in E as ->.
      intros [[= -> ->]|Hin]%elem_of_cons; [by left|].
      right. by apply list_elem_of_further.
    + intros [[= -> ->]|Hin]%elem_of_cons.
      * right. apply list_elem_of_here.
      * destruct (IH Hin) as [?|?]; [by left|].
        right. by apply list_elem_of_further.
Qed.

Section SchedulerDict.
Variable cf_safe_name : string → string.

(** The dict [aws_lambda_arns] after the first loop: its keys are pairwise
    different, they are the sanitized ids of the lambda targets, and every
    entry pairs the sanitized id of a lambda target with that target's
    [Arn]. *)
Lemma gather_NoDup ts acc :
  NoDup acc.*1 →
  NoDup (fold_left (FunctionScheduler.gather cf_safe_name) ts acc).*1.
Proof.
  revert acc. induction ts as [|t ts IH]; intros acc Hnd; [done|].
  cbn [fold_left]. apply IH. unfold FunctionScheduler.gather.
  destruct (String.prefix _ _); [by apply dict_set_NoDup|done].
Qed.

Lemma gather_keys ts acc k :
  k ∈ (fold_left (FunctionScheduler.gather cf_safe_name) ts acc).*1 ↔
  k ∈ acc.*1 ∨ k ∈ (cf_safe_name ∘ Id <$> lambda_targets ts).
Proof.
  revert acc. induction ts as [|t ts IH]; intros acc; cbn [fold_left].
  { cbn. rewrite elem_of_nil. tauto. }
  rewrite IH. unfold FunctionScheduler.gather, lambda_targets.
  destruct (String.prefix "arn:aws:lambda:" (Arn t)) eqn:Hp.
  - rewrite filter_cons_True by (by rewrite Hp).
    rewrite dict_set_keys, fmap_cons, elem_of_cons. cbn. tauto.
  - by rewrite filter_cons_False by (rewrite Hp; intros []).
Qed.

Lemma gather_entries ts acc k a :
  (k, a) ∈ fold_left (FunctionScheduler.gather cf_safe_name) ts acc →
  (k, a) ∈ acc ∨
  ∃ tg, tg ∈ lambda_targets ts ∧ k = cf_safe_name (Id tg) ∧ a = Arn tg.
Proof.
  revert acc. induction ts as [|t ts IH]; intros acc; cbn [fold_left].
  { by left. }
  intros [Hin|(tg & Htg & -> & ->)]%IH.
  - unfold FunctionScheduler.gather in Hin. unfold lambda_targets.
    destruct (String.prefix "arn:aws:lambda:" (Arn t)) eqn:Hp; [|by left].
    apply dict_set_entries in Hin as [[-> ->]|Hin]; [|by left].
    right. exists t. split; [|done].
    rewrite filter_cons_True by (by rewrite Hp). apply list_elem_of_here.
  - right. exists tg. split; [|done]. unfold lambda_targets in *.
    rewrite filter_cons. destruct (decide _); [|done].
    by apply list_elem_of_further.
Qed.
End SchedulerDict.

(** The second loop stops at the one permission that is named like a
    resource the graph already has. *)
Lemma grant_clash rule items s rs os cs k0 :
  NoDup items.*1 → k0 ∈ items.*1 →
  "PermToInvokeFunctionFor" +:+ k0 ∈ title <$> rs →
  (∀ k, k ∈ items.*1 → k ≠ k0 →
        "PermToInvokeFunctionFor" +:+ k ∉ title <$> rs) →
  for_each
    (λ item, add_resource (FunctionScheduler.Permission rule item);; mret tt)
    items (mkWorld s (mkTemplate rs os cs))
  = Err (DuplicateResourceName ("PermToInvokeFunctionFor" +:+ k0)).
Proof.
  revert rs. induction items as [|[k a] items IH]; intros rs Hnd Hk0 Hin Hfresh.
  { by apply elem_of_nil in Hk0. }
  cbn [for_each]. apply NoDup_cons in Hnd as [Hk Hnd].
  unfold mbind, M_bind, add_resource at 1.
  cbn [template resources title FunctionScheduler.Permission self outputs
       conditions].
  destruct (decide (k = k0)) as [->|Hne].
  - by rewrite existsb_eqb_true.
  - rewrite existsb_eqb_false
      by (apply Hfresh; [apply list_elem_of_here|done]).
    unfold mret, M_ret. apply IH; [done| | |].
    + cbn in Hk0. apply elem_of_cons in Hk0 as [?|?]; [congruence|done].
    + rewrite fmap_app. apply elem_of_app. by left.
    + intros k' Hk' Hne'. rewrite fmap_app. cbn.
      intros [Hr|Hr]%elem_of_app.
      * revert Hr. apply Hfresh; [by apply list_elem_of_further|done].
      * apply list_elem_of_singleton in Hr. apply (inj _) in Hr. by subst.
Qed.

(** X6.  The permissions of a scheduler graph, collisions or not.  For
    every events rule whose [Targets] are given and whose title is none of
    the permission names, a render succeeds; the graph is the rule followed
    by permission resources with pairwise different titles and there are
    no outputs.  Every permission names a lambda target of the rule: its
    title is ["PermToInvokeFunctionFor"] followed by that target's
    sanitized id and its [FunctionName] is that target's [Arn], so no
    permission is ever created for an [Arn] outside ["arn:aws:lambda:"];
    and the sanitized id of every lambda target has a permission of that
    name. *)
Theorem FunctionScheduler_permissions_name_lambda_targets cf b rule ts :
  variables b !! "CloudwatchEventsRule" = Some (VResource rule) →
  assoc "Targets" (properties rule) = Some (VTargets ts) →
  title rule
    ∉ ((λ tg, "PermToInvokeFunctionFor" +:+ cf (Id tg)) <$> lambda_targets ts) →
  ∃ t perms, render (FunctionScheduler.create_template cf) b = OK t ∧
    resources t = rule :: perms ∧
    outputs t = [] ∧
    NoDup (title <$> perms) ∧
    Forall (λ p, ∃ tg, tg ∈ lambda_targets ts ∧
              p = Resource awslambda_Permission
                    ("PermToInvokeFunctionFor" +:+ cf (Id tg))
                    [("Principal", VStr "events.amazonaws.com");
                     ("Action", VStr "lambda:InvokeFunction");
                     ("FunctionName", VStr (Arn tg));
                     ("SourceArn", GetAtt (title rule) "Arn")] None) perms ∧
    (∀ tg, tg ∈ lambda_targets ts →
       "PermToInvokeFunctionFor" +:+ cf (Id tg) ∈ title <$> perms).
Proof.
  intros Hrule Hts Htitle.
  set (dict := fold_left (FunctionScheduler.gather cf) ts []).
  assert (Hnd : NoDup dict.*1) by (apply gather_NoDup; constructor).
  assert (Hkeys : ∀ k, k ∈ dict.*1 ↔ k ∈ (cf ∘ Id <$> lambda_targets ts)).
  { intros k. unfold dict. rewrite gather_keys. cbn. rewrite elem_of_nil.
    tauto. }
  assert (Htitles : title <$> (FunctionScheduler.Permission rule <$> dict)
                    = (λ k, "PermToInvokeFunctionFor" +:+ k) <$> dict.*1).
  { rewrite <- !list_fmap_compose. apply list_fmap_ext. by intros i [k a]. }
  unfold render, FunctionScheduler.create_template,
    FunctionScheduler.create_scheduler.
  erewrite bind_run by reflexivity.
  erewrite bind_run by (unfold getitem; cbn [self variables]; by rewrite Hrule).
  cbv beta iota.
  erewrite bind_run
    by (unfold FunctionScheduler.getattr_Targets; by rewrite Hts).
  erewrite bind_run by reflexivity.
  fold dict. rewrite grant_all; [|done|].
  - eexists _, _. split; [reflexivity|]. cbn. split; [reflexivity|].
    split; [reflexivity|]. split; [|split].
    + rewrite Htitles. apply NoDup_fmap_2; [|done]. apply _.
    + apply Forall_fmap, Forall_forall. intros [k a] Hin.
      apply gather_entries in Hin as [Hin|(tg & Htg & -> & ->)].
      { by apply elem_of_nil in Hin. }
      by exists tg.
    + intros tg Htg. rewrite Htitles. apply list_elem_of_fmap.
      exists (cf (Id tg)). split; [done|]. apply Hkeys.
      apply list_elem_of_fmap. by exists tg.
  - intros k Hk%Hkeys. apply list_elem_of_fmap in Hk as (tg & -> & Htg).
    cbn. intros Hin%list_elem_of_singleton. apply Htitle.
    apply list_elem_of_fmap. by exists tg.
Qed.

Lemma FunctionScheduler_permissions_name_lambda_targets_witness :
  variables (scheduler_with (sample_rule "Nightly" colliding_targets))
    !! "CloudwatchEventsRule"
    = Some (VResource (sample_rule "Nightly" colliding_targets)) ∧
  assoc "Targets" (properties (sample_rule "Nightly" colliding_targets))
    = Some (VTargets colliding_targets) ∧
  (title (sample_rule "Nightly" colliding_targets)
     ∉ ((λ tg, "PermToInvokeFunctionFor" +:+ alnum_safe_name (Id tg))
          <$> lambda_targets colliding_targets)) ∧
  ∃ t perms, render (FunctionScheduler.create_template alnum_safe_name)
               (scheduler_with (sample_rule "Nightly" colliding_targets))
             = OK t ∧
    resources t = sample_rule "Nightly" colliding_targets :: perms ∧
    outputs t = [] ∧
    NoDup (title <$> perms) ∧
    Forall (λ p, ∃ tg, tg ∈ lambda_targets colliding_targets ∧
              p = Resource awslambda_Permission
                    ("PermToInvokeFunctionFor" +:+ alnum_safe_name (Id tg))
                    [("Principal", VStr "events.amazonaws.com");
                     ("Action", VStr "lambda:InvokeFunction");
                     ("FunctionName", VStr (Arn tg));
                     ("SourceArn",
                      GetAtt (title (sample_rule "Nightly" colliding_targets))
                        "Arn")] None) perms ∧
    (∀ tg, tg ∈ lambda_targets colliding_targets →
       "PermToInvokeFunctionFor" +:+ alnum_safe_name (Id tg)
       ∈ title <$> perms).
Proof.
  assert (H1 : variables (scheduler_with (sample_rule "Nightly" colliding_targets))
                 !! "CloudwatchEventsRule"
               = Some (VResource (sample_rule "Nightly" colliding_targets)))
    by (vm_compute; reflexivity).
  assert (H2 : assoc "Targets"
                 (properties (sample_rule "Nightly" colliding_targets))
               = Some (VTargets colliding_targets)) by reflexivity.
  assert (H3 : title (sample_rule "Nightly" colliding_targets)
     ∉ ((λ tg, "PermToInvokeFunctionFor" +:+ alnum_safe_name (Id tg))
          <$> lambda_targets colliding_targets))
    by (apply (bool_decide_unpack (_ ∉ _)); vm_compute; exact I).
  do 3 (split; [assumption|]).
  exact (FunctionScheduler_permissions_name_lambda_targets alnum_safe_name
           (scheduler_with (sample_rule "Nightly" colliding_targets))
           (sample_rule "Nightly" colliding_targets) colliding_targets
           H1 H2 H3).
Defined.

(** X7.  The one name clash of a scheduler render.  When the title of the
    rule is the permission name of one of its own lambda targets, the
    render fails with [DuplicateResourceName] for that title. *)
Theorem FunctionScheduler_rule_title_clash cf b rule ts :
  variables b !! "CloudwatchEventsRule" = Some (VResource rule) →
  assoc "Targets" (properties rule) = Some (VTargets ts) →
  title rule
    ∈ ((λ tg, "PermToInvokeFunctionFor" +:+ cf (Id tg)) <$> lambda_targets ts) →
  render (FunctionScheduler.create_template cf) b
  = Err (DuplicateResourceName (title rule)).
Proof.
  intros Hrule Hts Htitle.
  apply list_elem_of_fmap in Htitle as (tg0 & Htitle & Htg0).
  set (dict := fold_left (FunctionScheduler.gather cf) ts []).
  assert (Hnd : NoDup dict.*1) by (apply gather_NoDup; constructor).
  assert (Hk0 : cf (Id tg0) ∈ dict.*1).
  { apply gather_keys. right. apply list_elem_of_fmap. by exists tg0. }
  unfold render, FunctionScheduler.create_template,
    FunctionScheduler.create_scheduler.
  erewrite bind_run by reflexivity.
  erewrite bind_run by (unfold getitem; cbn [self variables]; by rewrite Hrule).
  cbv beta iota.
  erewrite bind_run
    by (unfold FunctionScheduler.getattr_Targets; by rewrite Hts).
  erewrite bind_run by reflexivity.
  fold dict. rewrite (grant_clash _ _ _ _ _ _ (cf (Id tg0))); [|done..| |].
  - cbn. by rewrite Htitle.
  - cbn. rewrite Htitle. apply list_elem_of_here.
  - intros k _ Hne. cbn. intros Hin%list_elem_of_singleton.
    rewrite Htitle in Hin. apply (inj _) in Hin. done.
Qed.

Lemma FunctionScheduler_rule_title_clash_witness :
  variables (scheduler_with clashing_rule) !! "CloudwatchEventsRule"
    = Some (VResource clashing_rule) ∧
  assoc "Targets" (properties clashing_rule)
    = Some (VTargets
              [Target "arn:aws:lambda:us-east-1:123456789012:function:nightly"
                 "nightly" []]) ∧
  (title clashing_rule
     ∈ ((λ tg, "PermToInvokeFunctionFor" +:+ alnum_safe_name (Id tg))
          <$> lambda_targets
                [Target "arn:aws:lambda:us-east-1:123456789012:function:nightly"
                   "nightly" []])) ∧
  render (FunctionScheduler.create_template alnum_safe_name)
    (scheduler_with clashing_rule)
  = Err (DuplicateResourceName (title clashing_rule)).
Proof.
  assert (H1 : variables (scheduler_with clashing_rule) !! "CloudwatchEventsRule"
               = Some (VResource clashing_rule)) by (vm_compute; reflexivity).
  assert (H2 : assoc "Targets" (properties clashing_rule)
    = Some (VTargets
              [Target "arn:aws:lambda:us-east-1:123456789012:function:nightly"
                 "nightly" []])) by reflexivity.
  assert (H3 : title clashing_rule
     ∈ ((λ tg, "PermToInvokeFunctionFor" +:+ alnum_safe_name (Id tg))
          <$> lambda_targets
                [Target "arn:aws:lambda:us-east-1:123456789012:function:nightly"
                   "nightly" []]))
    by (apply (bool_decide_unpack (_ ∈ _)); vm_compute; exact I).
  do 3 (split; [assumption|]).
  exact (FunctionScheduler_rule_title_clash alnum_safe_name
           (scheduler_with clashing_rule) clashing_rule _ H1 H2 H3).
Defined.

(** X8.  A rule without targets.  When the rule has no [Targets] property
    the graph is the rule alone, whatever its title: no permission, no
    output, no condition. *)
Theorem FunctionScheduler_no_targets cf b rule :
  variables b !! "CloudwatchEventsRule" = Some (VResource rule) →
  assoc "Targets" (properties rule) = None →
  render (FunctionScheduler.create_template cf) b
  = OK (mkTemplate [rule] [] []).
Proof.
  intros Hrule Hts.
  unfold render, FunctionScheduler.create_template,
    FunctionScheduler.create_scheduler.
  erewrite bind_run by reflexivity.
  erewrite bind_run by (unfold getitem; cbn [self variables]; by rewrite Hrule).
  cbv beta iota.
  erewrite bind_run
    by (unfold FunctionScheduler.getattr_Targets; by rewrite Hts).
  by erewrite bind_run by reflexivity.
Qed.

Lemma FunctionScheduler_no_targets_witness :
  variables (scheduler_with
               (Resource events_Rule "Nightly"
                  [("ScheduleExpression", VStr "rate(5 minutes)")] None))
    !! "CloudwatchEventsRule"
    = Some (VResource
              (Resource events_Rule "Nightly"
                 [("ScheduleExpression", VStr "rate(5 minutes)")] None)) ∧
  assoc "Targets"
    (properties (Resource events_Rule "Nightly"
                   [("ScheduleExpression", VStr "rate(5 minutes)")] None))
    = None ∧
  render (FunctionScheduler.create_template alnum_safe_name)
    (scheduler_with
       (Resource events_Rule "Nightly"
          [("ScheduleExpression", VStr "rate(5 minutes)")] None))
  = OK (mkTemplate
          [Resource events_Rule "Nightly"
             [("ScheduleExpression", VStr "rate(5 minutes)")] None] [] []).
Proof.
  split; [vm_compute; reflexivity|]. split; [reflexivity|].
  apply (FunctionScheduler_no_targets alnum_safe_name
           (scheduler_with
              (Resource events_Rule "Nightly"
                 [("ScheduleExpression", VStr "rate(5 minutes)")] None)));
    [vm_compute; reflexivity|reflexivity].
Defined.

(** ** More on the PostgresRDS blueprint *)



(** X11.  The guard covers what the DNS record uses.  Whenever the condition
    ["CreateInternalHostname"] evaluates to true for the given parameter
    values, every name the DNS record refers to is the title of a resource
    of the graph or a parameter with a non-empty value. *)
Theorem PostgresRDS_guard_covers_record b params t dns n :
  render PostgresRDS.create_template b = OK t →
  condition_value params t "CreateInternalHostname" = Some true →
  dns ∈ of_class route53_RecordSetType t →
  n ∈ refs_resource dns →
  n ∈ title <$> resources t ∨ ∃ s, params !! n = Some s ∧ s ≠ "".
Proof.
  destruct b as [bn bc vars br bra bp bf bfv bal].
  run_pg. intros [= <-]. unfold condition_value, eval_conditions.
  cbn [conditions fold_left eval_cexpr eval_operand].
  destruct (params !! "InternalZoneId") as [z|] eqn:Hz;
    destruct (params !! "InternalZoneName") as [zn|] eqn:Hzn;
    destruct (params !! "InternalHostname") as [h|] eqn:Hh;
    repeat match goal with
    | |- context [String.eqb ?s ""] => is_var s; destruct (String.eqb s "") eqn:?
    end;
    intros Hc; vm_compute in Hc; try discriminate Hc.
  repeat match goal with H : String.eqb _ _ = false |- _ =>
    apply String.eqb_neq in H end.
  intros Hdns. cbn in Hdns. apply list_elem_of_singleton in Hdns as ->.
  cbn. rewrite !elem_of_cons, elem_of_nil.
  intros [->|[->|[->|[->|[]]]]]; eauto 10.
Qed.

Lemma PostgresRDS_guard_covers_record_witness :
  render PostgresRDS.create_template (new_blueprint "orders" sample_context ∅)
  = OK orders_template ∧
  condition_value all_three orders_template "CreateInternalHostname"
  = Some true ∧
  ∃ dns, dns ∈ of_class route53_RecordSetType orders_template ∧
    "InternalHostname" ∈ refs_resource dns ∧
    ("InternalHostname" ∈ title <$> resources orders_template ∨
     ∃ s, all_three !! "InternalHostname" = Some s ∧ s ≠ "").
Proof.
  split; [vm_compute; reflexivity|]. split; [vm_compute; reflexivity|].
  eexists. split; [vm_compute; apply list_elem_of_here|].
  split; [vm_compute; apply list_elem_of_further, list_elem_of_here|].
  eapply (PostgresRDS_guard_covers_record
            (new_blueprint "orders" sample_context ∅) all_three
            orders_template).
  - vm_compute; reflexivity.
  - vm_compute; reflexivity.
  - vm_compute; apply list_elem_of_here.
  - vm_compute; apply list_elem_of_further, list_elem_of_here.
Defined.



